(** * awesome_api: the application factory and its root handler

    A shallow embedding of [src/awesome_api/__init__.py] together with the
    part of the web framework the package runs on (Flask on top of
    Werkzeug): URL rules and their matching, the conversion of a view's
    return value into a response, and request dispatch.  Strings are
    sequences of code points below 256; request paths are taken as the
    server hands them over ([PATH_INFO], already split from the query
    string). *)

From Stdlib Require Import ZArith Ascii String DecimalString.
From stdpp Require Import base option list gmap strings.

Local Open Scope string_scope.
Local Set Warnings "-register-all".

(** ** Text helpers *)

Definition chr (n : nat) : string := String (ascii_of_nat n) "".

Definition nl : string := chr 10.

(** [str(n)] for a natural number. *)
Definition str_of_nat (n : nat) : string :=
  NilEmpty.string_of_uint (Nat.to_uint n).

(** [s.startswith(p)], returning the remainder of [s] after [p]. *)
Fixpoint strip_prefix (p s : string) : option string :=
  match p, s with
  | EmptyString, _ => Some s
  | String a p', String b s' =>
      if Ascii.eqb a b then strip_prefix p' s' else None
  | String _ _, EmptyString => None
  end.

Fixpoint join (sep : string) (l : list string) : string :=
  match l with
  | [] => ""
  | [x] => x
  | x :: xs => x ++ sep ++ join sep xs
  end.

(** ** JSON values, as [json.dumps] writes them and [json.loads] reads them *)

Module Json.

Inductive json : Type :=
| JNull
| JBool (b : bool)
| JInt (z : Z)
| JStr (s : string)
| JArr (items : list json)
| JObj (items : list (string * json)).

Definition hex_digit (n : nat) : string :=
  match n with
  | 0 => "0" | 1 => "1" | 2 => "2" | 3 => "3" | 4 => "4" | 5 => "5"
  | 6 => "6" | 7 => "7" | 8 => "8" | 9 => "9" | 10 => "a" | 11 => "b"
  | 12 => "c" | 13 => "d" | 14 => "e" | _ => "f"
  end.

(** One character of a string literal, with [ensure_ascii] in force. *)
Definition escape_char (c : ascii) : string :=
  let n := nat_of_ascii c in
  if Nat.eqb n 34 then "\" ++ chr 34
  else if Nat.eqb n 92 then "\\"
  else if Nat.eqb n 10 then "\n"
  else if Nat.eqb n 13 then "\r"
  else if Nat.eqb n 9 then "\t"
  else if Nat.eqb n 8 then "\b"
  else if Nat.eqb n 12 then "\f"
  else if (n <? 32)%nat || (126 <? n)%nat
       then "\u00" ++ hex_digit (n / 16) ++ hex_digit (n mod 16)
  else String c "".

Fixpoint escape (s : string) : string :=
  match s with
  | EmptyString => ""
  | String c s' => escape_char c ++ escape s'
  end.

Definition quote (s : string) : string := chr 34 ++ escape s ++ chr 34.

Definition dumps_int (z : Z) : string :=
  match z with
  | Z0 => "0"
  | Zpos p => str_of_nat (Pos.to_nat p)
  | Zneg p => "-" ++ str_of_nat (Pos.to_nat p)
  end.

(** Insertion of a rendered member into a list kept sorted by key
    ([sort_keys=True]). *)
Fixpoint insert_sorted (kv : string * string) (l : list (string * string))
  : list (string * string) :=
  match l with
  | [] => [kv]
  | kv' :: l' =>
      if String.leb (fst kv) (fst kv') then kv :: l
      else kv' :: insert_sorted kv l'
  end.

Definition sort_members (l : list (string * string)) : list (string * string) :=
  foldr insert_sorted [] l.

Definition render_member (kv : string * string) : string :=
  quote (fst kv) ++ ":" ++ snd kv.

(** [json.dumps(v, separators=(",", ":"), sort_keys=True)]. *)
Fixpoint dumps (v : json) : string :=
  match v with
  | JNull => "null"
  | JBool true => "true"
  | JBool false => "false"
  | JInt z => dumps_int z
  | JStr s => quote s
  | JArr items =>
      "[" ++ join "," ((fix each (l : list json) : list string :=
                          match l with
                          | [] => []
                          | x :: l' => dumps x :: each l'
                          end) items) ++ "]"
  | JObj items =>
      "{" ++ join "," (render_member <$> sort_members
             ((fix each (l : list (string * json)) : list (string * string) :=
                 match l with
                 | [] => []
                 | (k, x) :: l' => (k, dumps x) :: each l'
                 end) items)) ++ "}"
  end.

(** *** Reading *)

Definition is_ws (c : ascii) : bool :=
  let n := nat_of_ascii c in
  Nat.eqb n 32 || Nat.eqb n 9 || Nat.eqb n 10 || Nat.eqb n 13.

Fixpoint skip_ws (s : string) : string :=
  match s with
  | String c s' => if is_ws c then skip_ws s' else s
  | EmptyString => s
  end.

Definition hex_val (c : ascii) : option nat :=
  let n := nat_of_ascii c in
  if (48 <=? n)%nat && (n <=? 57)%nat then Some (n - 48)
  else if (97 <=? n)%nat && (n <=? 102)%nat then Some (n - 87)
  else if (65 <=? n)%nat && (n <=? 70)%nat then Some (n - 55)
  else None.

(** The code point written by the four hex digits of a [\u] escape; code
    points from 256 on have no counterpart in [string]. *)
Definition unicode_escape (a b c d : ascii) : option ascii :=
  a' ← hex_val a; b' ← hex_val b; c' ← hex_val c; d' ← hex_val d;
  if Nat.eqb a' 0 && Nat.eqb b' 0 then Some (ascii_of_nat (16 * c' + d'))
  else None.

(** The characters of a string literal up to its closing quote, and
    what follows the literal. *)
Fixpoint read_string (s : string) : option (string * string) :=
  match s with
  | EmptyString => None
  | String c s' =>
      let n := nat_of_ascii c in
      if Nat.eqb n 34 then Some ("", s')
      else if Nat.eqb n 92 then
        match s' with
        | String e s'' =>
            let m := nat_of_ascii e in
            let lit (x : nat) :=
              '(t, rest) ← read_string s''; Some (String (ascii_of_nat x) t, rest) in
            if Nat.eqb m 34 then lit 34
            else if Nat.eqb m 92 then lit 92
            else if Nat.eqb m 47 then lit 47
            else if Nat.eqb m 98 then lit 8
            else if Nat.eqb m 102 then lit 12
            else if Nat.eqb m 110 then lit 10
            else if Nat.eqb m 114 then lit 13
            else if Nat.eqb m 116 then lit 9
            else if Nat.eqb m 117 then
              match s'' with
              | String h1 (String h2 (String h3 (String h4 s4))) =>
                  x ← unicode_escape h1 h2 h3 h4;
                  '(t, rest) ← read_string s4;
                  Some (String x t, rest)
              | _ => None
              end
            else None
        | EmptyString => None
        end
      else if (n <? 32)%nat then None
      else '(t, rest) ← read_string s'; Some (String c t, rest)
  end.

Definition is_digit (c : ascii) : bool :=
  let n := nat_of_ascii c in (48 <=? n)%nat && (n <=? 57)%nat.

Fixpoint read_digits (acc : N) (s : string) : N * string :=
  match s with
  | String c s' =>
      if is_digit c
      then read_digits (10 * acc + N.of_nat (nat_of_ascii c - 48))%N s'
      else (acc, s)
  | EmptyString => (acc, s)
  end.

Definition starts_with_digit (s : string) : bool :=
  match s with
  | String c _ => is_digit c
  | EmptyString => false
  end.

Definition read_int (s : string) : option (Z * string) :=
  match s with
  | String "-" s' =>
      if starts_with_digit s'
      then let '(n, rest) := read_digits 0 s' in Some (- Z.of_N n, rest)%Z
      else None
  | _ =>
      if starts_with_digit s
      then let '(n, rest) := read_digits 0 s in Some (Z.of_N n, rest)
      else None
  end.

(** [d[k] = v] on a dict kept as its items in insertion order. *)
Fixpoint dict_set {V} (k : string) (v : V) (d : list (string * V))
  : list (string * V) :=
  match d with
  | [] => [(k, v)]
  | (k', v') :: d' =>
      if String.eqb k k' then (k, v) :: d' else (k', v') :: dict_set k v d'
  end.

Definition dict_get {V} (k : string) (d : list (string * V)) : option V :=
  snd <$> List.find (fun kv => String.eqb k (fst kv)) d.

(** A value, then what follows it.  [fuel] bounds the nesting depth plus
    the number of members read; the length of the text always suffices. *)
Fixpoint read_value (fuel : nat) (s : string) : option (json * string) :=
  match fuel with
  | O => None
  | S fuel' =>
      match skip_ws s with
      | String c s' =>
          let n := nat_of_ascii c in
          if Nat.eqb n 34 then
            '(t, rest) ← read_string s'; Some (JStr t, rest)
          else if Nat.eqb n 91 then
            match skip_ws s' with
            | String "]" rest => Some (JArr [], rest)
            | _ => '(l, rest) ← read_items fuel' s'; Some (JArr l, rest)
            end
          else if Nat.eqb n 123 then
            match skip_ws s' with
            | String "}" rest => Some (JObj [], rest)
            | _ => '(l, rest) ← read_members fuel' [] s'; Some (JObj l, rest)
            end
          else
            match strip_prefix "null" (String c s'),
                  strip_prefix "true" (String c s'),
                  strip_prefix "false" (String c s') with
            | Some rest, _, _ => Some (JNull, rest)
            | _, Some rest, _ => Some (JBool true, rest)
            | _, _, Some rest => Some (JBool false, rest)
            | _, _, _ =>
                '(z, rest) ← read_int (String c s'); Some (JInt z, rest)
            end
      | EmptyString => None
      end
  end
with read_items (fuel : nat) (s : string) : option (list json * string) :=
  match fuel with
  | O => None
  | S fuel' =>
      '(v, rest) ← read_value fuel' s;
      match skip_ws rest with
      | String "," rest' =>
          '(l, rest'') ← read_items fuel' rest'; Some (v :: l, rest'')
      | String "]" rest' => Some ([v], rest')
      | _ => None
      end
  end
with read_members (fuel : nat) (acc : list (string * json)) (s : string)
  : option (list (string * json) * string) :=
  match fuel with
  | O => None
  | S fuel' =>
      match skip_ws s with
      | String q s' =>
          if Nat.eqb (nat_of_ascii q) 34 then
            '(k, rest) ← read_string s';
            match skip_ws rest with
            | String ":" rest' =>
                '(v, rest'') ← read_value fuel' rest';
                let acc' := dict_set k v acc in
                match skip_ws rest'' with
                | String "," more => read_members fuel' acc' more
                | String "}" more => Some (acc', more)
                | _ => None
                end
            | _ => None
            end
          else None
      | EmptyString => None
      end
  end.

(** [json.loads(s)]; [None] stands for a [JSONDecodeError]. *)
Definition loads (s : string) : option json :=
  '(v, rest) ← read_value (S (String.length s)) s;
  match skip_ws rest with
  | EmptyString => Some v
  | _ => None
  end.

End Json.

Import Json.

(** ** HTTP messages *)

Record Request : Type := mkRequest {
  method : string;                          (* REQUEST_METHOD *)
  path : string;                            (* PATH_INFO *)
  query_string : string;                    (* QUERY_STRING *)
  request_headers : list (string * string);
  request_data : string                     (* the request body *)
}.

Record Response : Type := mkResponse {
  status_code : nat;
  headers : list (string * string);
  data : string
}.

Definition header (name : string) (r : Response) : option string :=
  dict_get name (headers r).

(** ** Werkzeug: responses, HTTP errors, URL rules *)

Module Werkzeug.

Definition charset_mimetypes : list string :=
  ["application/ecmascript"; "application/javascript"; "application/sql";
   "application/xml"; "application/xml-dtd";
   "application/xml-external-parsed-entity"].

Fixpoint ends_with (suffix s : string) : bool :=
  String.eqb suffix s ||
  match s with
  | String _ s' => ends_with suffix s'
  | EmptyString => false
  end.

(** [get_content_type(mimetype, "utf-8")] *)
Definition get_content_type (mimetype : string) : string :=
  if bool_decide (is_Some (strip_prefix "text/" mimetype))
     || bool_decide (mimetype ∈ charset_mimetypes)
     || ends_with "+xml" mimetype
  then mimetype ++ "; charset=utf-8"
  else mimetype.

(** [Response(body, status, headers)]: the body is stored and its length
    recorded in [Content-Length]. *)
Definition build (body : string) (status : nat) (hdrs : list (string * string))
  : Response :=
  {| status_code := status;
     headers := dict_set "Content-Length" (str_of_nat (String.length body)) hdrs;
     data := body |}.

(** [Response(body, status=status, mimetype=mimetype)] *)
Definition response_class (body : string) (status : nat) (mimetype : string)
  : Response :=
  build body status [("Content-Type", get_content_type mimetype)].

Definition mimetype_of (r : Response) : string :=
  match header "Content-Type" r with
  | Some ct =>
      (fix upto (s : string) : string :=
         match s with
         | String c s' => if Ascii.eqb c ";" then "" else String c (upto s')
         | EmptyString => ""
         end) ct
  | None => ""
  end.

(** [Response.is_json] *)
Definition is_json (r : Response) : bool :=
  let mt := mimetype_of r in
  String.eqb mt "application/json"
  || (bool_decide (is_Some (strip_prefix "application/" mt)) && ends_with "+json" mt).

(** [Response.get_json(silent=True)]: the body parsed as JSON. *)
Definition get_json (r : Response) : option json :=
  if is_json r then loads (data r) else None.

Inductive HTTPException : Type :=
| NotFound
| MethodNotAllowed (valid_methods : list string)
| InternalServerError.

Definition code (e : HTTPException) : nat :=
  match e with
  | NotFound => 404
  | MethodNotAllowed _ => 405
  | InternalServerError => 500
  end.

Definition name (e : HTTPException) : string :=
  match e with
  | NotFound => "Not Found"
  | MethodNotAllowed _ => "Method Not Allowed"
  | InternalServerError => "Internal Server Error"
  end.

Definition description (e : HTTPException) : string :=
  match e with
  | NotFound =>
      "The requested URL was not found on the server. If you entered the URL manually please check your spelling and try again."
  | MethodNotAllowed _ => "The method is not allowed for the requested URL."
  | InternalServerError =>
      "The server encountered an internal error and was unable to complete your request. Either the server is overloaded or there is an error in the application."
  end.

Definition get_body (e : HTTPException) : string :=
  "<!doctype html>" ++ nl ++ "<html lang=en>" ++ nl
  ++ "<title>" ++ str_of_nat (code e) ++ " " ++ name e ++ "</title>" ++ nl
  ++ "<h1>" ++ name e ++ "</h1>" ++ nl
  ++ "<p>" ++ description e ++ "</p>" ++ nl.

Definition get_headers (e : HTTPException) : list (string * string) :=
  ("Content-Type", "text/html; charset=utf-8") ::
  match e with
  | MethodNotAllowed valid => [("Allow", join ", " valid)]
  | _ => []
  end.

(** [HTTPException.get_response()]: the response the framework sends when
    nobody handles the error. *)
Definition get_response (e : HTTPException) : Response :=
  build (get_body e) (code e) (get_headers e).

(** *** URL rules *)

Record Rule : Type := mkRule {
  rule : string;
  endpoint : string;
  methods : gset string;
  provide_automatic_options : bool
}.

(** [Rule(text, methods=..., endpoint=...)]: a rule that answers GET
    answers HEAD as well. *)
Definition new_rule (text : string) (methods : gset string) (endpoint : string)
    (automatic_options : bool) : Rule :=
  {| rule := text;
     endpoint := endpoint;
     methods := if bool_decide ("HEAD" ∉ methods) && bool_decide ("GET" ∈ methods)
                then methods ∪ {["HEAD"]} else methods;
     provide_automatic_options := automatic_options |}.

(** The parts of a rule string: literal text and [<converter:name>]
    placeholders. *)
Inductive Part : Type :=
| Static (text : string)
| Dynamic (converter name : string).

Inductive scan : Type :=
| InText (seen : string)
| InPlaceholder (seen : string).

Definition flush (seen : string) : list Part :=
  match seen with
  | EmptyString => []
  | _ => [Static seen]
  end.

Fixpoint split_colon (s : string) : option (string * string) :=
  match s with
  | EmptyString => None
  | String c s' =>
      if Ascii.eqb c ":" then Some ("", s')
      else '(a, b) ← split_colon s'; Some (String c a, b)
  end.

Definition placeholder (seen : string) : Part :=
  match split_colon seen with
  | Some (conv, var) => Dynamic conv var
  | None => Dynamic "default" seen
  end.

(** [None] stands for the [ValueError] of a malformed rule. *)
Fixpoint parse_rule (st : scan) (s : string) : option (list Part) :=
  match s, st with
  | EmptyString, InText seen => Some (flush seen)
  | EmptyString, InPlaceholder _ => None
  | String c s', InText seen =>
      if Ascii.eqb c "<"
      then ps ← parse_rule (InPlaceholder "") s'; Some (flush seen ++ ps)%list
      else parse_rule (InText (seen ++ String c "")) s'
  | String c s', InPlaceholder seen =>
      if Ascii.eqb c ">"
      then ps ← parse_rule (InText "") s'; Some (placeholder seen :: ps)
      else parse_rule (InPlaceholder (seen ++ String c "")) s'
  end.

(** May the converter's value, of which [taken] is already read, go on
    with [c]?  [default] and [string] are [[^/]+]; [path] is [[^/].*?]. *)
Definition accepts (converter taken : string) (c : ascii) : bool :=
  if String.eqb converter "default" || String.eqb converter "string"
  then negb (Ascii.eqb c "/")
  else if String.eqb converter "path"
  then negb (String.eqb taken "" && Ascii.eqb c "/")
  else false.

(** The values of the placeholders when the parts match the whole path. *)
Fixpoint match_parts (parts : list Part) (s : string)
  : option (list (string * string)) :=
  match parts with
  | [] => if String.eqb s "" then Some [] else None
  | Static text :: rest => s' ← strip_prefix text s; match_parts rest s'
  | Dynamic converter var :: rest =>
      (fix take (taken s : string) : option (list (string * string)) :=
         match s with
         | EmptyString => None
         | String c s' =>
             if accepts converter taken c then
               let taken' := taken ++ String c "" in
               match match_parts rest s' with
               | Some args => Some ((var, taken') :: args)
               | None => take taken' s'
               end
             else None
         end) "" s
  end.

Definition match_rule (r : Rule) (path : string) : option (list (string * string)) :=
  parts ← parse_rule (InText "") (rule r); match_parts parts path.

(** [MapAdapter.match(path_info, method)]: the first rule whose path and
    method both fit; a path that fits only rules of other methods is
    [MethodNotAllowed] with those rules' methods, any other path is
    [NotFound].  The rules are tried in the order of the list, and the
    redirects Werkzeug issues for a doubled or a missing slash are not
    modelled. *)
Fixpoint match_ (rules : list Rule) (path method : string)
    (have_match_for : gset string)
  : HTTPException + (Rule * list (string * string)) :=
  match rules with
  | [] =>
      if bool_decide (have_match_for = ∅) then inl NotFound
      else inl (MethodNotAllowed (elements have_match_for))
  | r :: rules' =>
      match match_rule r path with
      | Some args =>
          if bool_decide (method ∈ methods r) then inr (r, args)
          else match_ rules' path method (have_match_for ∪ methods r)
      | None => match_ rules' path method have_match_for
      end
  end.

End Werkzeug.

Import Werkzeug.

(** ** Flask: the application object and request dispatch

    Only what the package touches is modelled: the URL map, the view
    functions and the dispatch of one request.  Hooks, error handlers,
    blueprints and sessions, none of which the package registers or
    reads, are left out. *)

Module Flask.

(** What a Python call that can raise gives back. *)
Inductive Result (A : Type) : Type :=
| Ok (a : A)
| Err (exception : string).
Arguments Ok {A} a.
Arguments Err {A} exception.

#[export] Instance result_ret : MRet Result := fun _ a => Ok a.
#[export] Instance result_bind : MBind Result := fun _ _ f m =>
  match m with
  | Ok a => f a
  | Err e => Err e
  end.

(** The mutable objects a view could reach besides its request (module
    globals, [app.config], ...), by name. *)
Abbreviation Store := (gmap string json).

Record RequestContext : Type := mkRequestContext {
  request : Request;
  view_args : list (string * string)
}.

(** What a view function may hand back to the framework. *)
Inductive ReturnValue : Type :=
| RvStr (text : string)
| RvDict (items : list (string * json))
| RvList (items : list json)
| RvResponse (r : Response).

Inductive Raised : Type :=
| HTTPError (e : HTTPException)
| Error (type_name : string).

Inductive Completion : Type :=
| Return (rv : ReturnValue)
| Raise (e : Raised).

(** A Python function object used as a view: its identity (what
    [add_url_rule] compares when an endpoint is registered again), its
    [__name__], the keyword parameters it declares ([None] when it takes
    any) and its body. *)
Record ViewFunc : Type := mkViewFunc {
  fn_id : nat;
  fn_name : string;
  fn_params : option (list string);
  fn_body : RequestContext → Store → Store * Completion
}.

(** Calling [f] with the view arguments as keywords: keywords the function does not declare, or declared
    parameters left without a value, are a [TypeError]. *)
Definition call (f : ViewFunc) (ctx : RequestContext) (st : Store)
  : Store * Completion :=
  match fn_params f with
  | Some params =>
      if bool_decide (list_to_set (fst <$> view_args ctx) =@{gset string}
                      list_to_set params)
      then fn_body f ctx st
      else (st, Raise (Error "TypeError"))
  | None => fn_body f ctx st
  end.

Record App : Type := mkApp {
  import_name : string;
  url_map : list Rule;
  view_functions : gmap string ViewFunc
}.

Definition upper_char (c : ascii) : ascii :=
  let n := nat_of_ascii c in
  if (97 <=? n)%nat && (n <=? 122)%nat then ascii_of_nat (n - 32) else c.

Fixpoint upper (s : string) : string :=
  match s with
  | EmptyString => ""
  | String c s' => String (upper_char c) (upper s')
  end.

(** [app.add_url_rule(rule, endpoint, view_func, methods=methods)] *)
Definition add_url_rule (app : App) (rule : string) (endpoint : option string)
    (view_func : ViewFunc) (methods : option (list string)) : Result App :=
  let endpoint := default (fn_name view_func) endpoint in
  let methods : gset string := list_to_set (upper <$> default ["GET"] methods) in
  let automatic_options := bool_decide ("OPTIONS" ∉ methods) in
  let methods := if automatic_options then methods ∪ {["OPTIONS"]} else methods in
  let rule_obj := new_rule rule methods endpoint automatic_options in
  match parse_rule (InText "") rule with
  | None => Err "ValueError"
  | Some _ =>
      let registered := (url_map app ++ [rule_obj])%list in
      match view_functions app !! endpoint with
      | Some old_func =>
          if bool_decide (fn_id old_func = fn_id view_func)
          then Ok {| import_name := import_name app;
                     url_map := registered;
                     view_functions := <[endpoint := view_func]> (view_functions app) |}
          else Err "AssertionError"
      | None =>
          Ok {| import_name := import_name app;
                url_map := registered;
                view_functions := <[endpoint := view_func]> (view_functions app) |}
      end
  end.

(** [@app.route(rule)] applied to [f]. *)
Definition route (app : App) (rule : string) (f : ViewFunc) : Result App :=
  add_url_rule app rule None f None.

(** The view behind the [static] endpoint,
    a lambda that forwards its keywords to [app.send_static_file].  The package has no
    [static] directory, so no file name is found. *)
Definition send_static_file : ViewFunc :=
  {| fn_id := 0;
     fn_name := "<lambda>";
     fn_params := None;
     fn_body := fun _ st => (st, Raise (HTTPError NotFound)) |}.

(** [Flask(import_name)]: with the default [static_folder="static"] the
    constructor registers the rule that serves static files. *)
Definition Flask (import_name : string) : Result App :=
  add_url_rule {| import_name := import_name; url_map := []; view_functions := ∅ |}
    "/static/<path:filename>" (Some "static") send_static_file None.

(** [jsonify(v)] outside debug mode. *)
Definition jsonify (v : json) : Response :=
  response_class (dumps v ++ nl) 200 "application/json".

(** [app.make_response(rv)] *)
Definition make_response (rv : ReturnValue) : Response :=
  match rv with
  | RvResponse r => r
  | RvStr text => response_class text 200 "text/html"
  | RvDict items => jsonify (JObj items)
  | RvList items => jsonify (JArr items)
  end.

(** The methods some rule accepts on this path. *)
Definition allowed_methods (app : App) (path : string) : list string :=
  match match_ (url_map app) path "--" ∅ with
  | inl (MethodNotAllowed valid) => valid
  | _ => []
  end.

Definition make_default_options_response (app : App) (req : Request) : Response :=
  build "" 200 [("Content-Type", get_content_type "text/html");
                ("Allow", join ", " (allowed_methods app (path req)))].

(** [app.dispatch_request()], with the endpoints whose view function was
    entered. *)
Definition dispatch_request (app : App) (req : Request) (st : Store)
  : Store * list string * Completion :=
  match match_ (url_map app) (path req) (method req) ∅ with
  | inl e => (st, [], Raise (HTTPError e))
  | inr (r, args) =>
      if provide_automatic_options r && String.eqb (method req) "OPTIONS"
      then (st, [], Return (RvResponse (make_default_options_response app req)))
      else
        match view_functions app !! endpoint r with
        | None => (st, [], Raise (Error "KeyError"))
        | Some f =>
            let '(st', c) := call f {| request := req; view_args := args |} st in
            (st', [endpoint r], c)
        end
  end.

(** [app.full_dispatch_request()]: an HTTP error nobody handles is its
    own response; any other exception is left to the caller. *)
Definition full_dispatch_request (app : App) (req : Request) (st : Store)
  : Store * list string * (string + Response) :=
  let '(st', entered, c) := dispatch_request app req st in
  match c with
  | Return rv => (st', entered, inr (make_response rv))
  | Raise (HTTPError e) => (st', entered, inr (get_response e))
  | Raise (Error type_name) => (st', entered, inl type_name)
  end.

(** What goes on the wire: no body for HEAD and for statuses that have
    none. *)
Definition get_wsgi_response (method : string) (r : Response) : Response :=
  let s := status_code r in
  if String.eqb method "HEAD" || ((100 <=? s)%nat && (s <? 200)%nat)
     || Nat.eqb s 204 || Nat.eqb s 304
  then {| status_code := s; headers := headers r; data := "" |}
  else r.

Record Served : Type := mkServed {
  entered : list string;     (* endpoints whose view function ran *)
  failure : option string;   (* the exception that ended the view, if it was not an HTTP error *)
  response : Response
}.

(** [app.wsgi_app(environ, start_response)] *)
Definition wsgi_app (app : App) (req : Request) (st : Store) : Store * Served :=
  let '(st', entered, r) := full_dispatch_request app req st in
  let resp := match r with
              | inr resp => resp
              | inl _ => get_response InternalServerError
              end in
  (st', {| entered := entered;
           failure := match r with inl t => Some t | inr _ => None end;
           response := get_wsgi_response (method req) resp |}).

(** Requests served one after the other against the same application. *)
Fixpoint serve (app : App) (reqs : list Request) (st : Store)
  : Store * list Served :=
  match reqs with
  | [] => (st, [])
  | req :: reqs' =>
      let '(st1, out) := wsgi_app app req st in
      let '(st2, outs) := serve app reqs' st1 in
      (st2, out :: outs)
  end.

(** [app.test_client().open(url, method=method)] *)
Fixpoint split_query (url : string) : string * string :=
  match url with
  | EmptyString => ("", "")
  | String c url' =>
      if Ascii.eqb c "?" then ("", url')
      else let '(p, q) := split_query url' in (String c p, q)
  end.

Definition client_open (app : App) (method url : string) (st : Store)
  : Store * Served :=
  let '(p, q) := split_query url in
  wsgi_app app {| method := method; path := p; query_string := q;
                  request_headers := [("Host", "localhost")];
                  request_data := "" |} st.

End Flask.

Import Flask.

(** ** The package: [awesome_api/__init__.py] *)

Definition hello : ViewFunc :=
  {| fn_id := 1;
     fn_name := "hello";
     fn_params := Some [];
     fn_body := fun _ st =>
       (st, Return (RvDict [("message", JStr "Welcome to Awesome API!")])) |}.

Definition create_app (_ : unit) : Result App :=
  app ← Flask "awesome_api";
  app ← route app "/" hello;
  Ok app.

(** ** The application [create_app] builds, written out *)

Definition static_rule : Rule :=
  {| rule := "/static/<path:filename>";
     endpoint := "static";
     methods := {["GET"; "HEAD"; "OPTIONS"]};
     provide_automatic_options := true |}.

Definition root_rule : Rule :=
  {| rule := "/";
     endpoint := "hello";
     methods := {["GET"; "HEAD"; "OPTIONS"]};
     provide_automatic_options := true |}.

Definition built_app : App :=
  {| import_name := "awesome_api";
     url_map := [static_rule; root_rule];
     view_functions := <["hello" := hello]> (<["static" := send_static_file]> ∅) |}.

(** The payload of the root handler and the response the framework makes
    of it. *)
Definition payload : list (string * json) :=
  [("message", JStr "Welcome to Awesome API!")].

Definition greeting : Response := jsonify (JObj payload).

(** The same request under another method. *)
Definition with_method (m : string) (req : Request) : Request :=
  {| method := m; path := path req; query_string := query_string req;
     request_headers := request_headers req; request_data := request_data req |}.

(** ** The test module: [tests/test_app.py] *)

Module test_app.

(** The [app] fixture. *)
Definition app (_ : unit) : Result App := create_app tt.

(** What [app.test_client()] hands out: a client bound to the
    application. *)
Record FlaskClient : Type := mkFlaskClient { application : App }.

(** The [client] fixture. *)
Definition client (app : App) : FlaskClient := {| application := app |}.

(** [client.get(url)] *)
Definition get (c : FlaskClient) (url : string) (st : Store) : Store * Served :=
  client_open (application c) "GET" url st.

(** [response.json["message"] == expected], with what Python raises when
    the body is not JSON, is not an object, or lacks the key. *)
Definition message_is (expected : string) (r : Response) : Result bool :=
  if is_json r then
    match loads (data r) with
    | None => Err "JSONDecodeError"
    | Some (JObj d) =>
        match dict_get "message" d with
        | Some (JStr s) => Ok (String.eqb s expected)
        | Some _ => Ok false
        | None => Err "KeyError"
        end
    | Some _ => Err "TypeError"
    end
  else Err "TypeError".

(** The test function: both assertions, in order. *)
Definition test_hello_route (client : FlaskClient) (st : Store)
  : Store * Result unit :=
  let '(st', out) := get client "/" st in
  let response := response out in
  if negb (Nat.eqb (status_code response) 200) then (st', Err "AssertionError")
  else
    match message_is "Welcome to Awesome API!" response with
    | Err e => (st', Err e)
    | Ok false => (st', Err "AssertionError")
    | Ok true => (st', Ok tt)
    end.

(** One run of the test with its fixtures resolved. *)
Definition run (st : Store) : Store * Result unit :=
  match app tt with
  | Err e => (st, Err e)
  | Ok a => test_hello_route (client a) st
  end.

End test_app.

(** ** Sample requests *)

Definition plain_get : Request :=
  {| method := "GET"; path := "/"; query_string := "";
     request_headers := []; request_data := "" |}.

Definition busy_get : Request :=
  {| method := "GET"; path := "/"; query_string := "foo=bar";
     request_headers := [("Accept", "text/html"); ("X-Trace", "1")];
     request_data := "ignored" |}.

Definition plain_post : Request :=
  {| method := "POST"; path := "/"; query_string := "";
     request_headers := [("Content-Type", "application/json")];
     request_data := "{}" |}.

Definition some_store : Store := {["visits" := JInt 3]}.

(** ** Every way a request can go *)


(** * Facts about the built application *)

Lemma create_app_built : create_app tt = Ok built_app.
Proof. vm_compute. reflexivity. Qed.

Lemma create_app_inv (app : App) : create_app tt = Ok app → app = built_app.
Proof. rewrite create_app_built. congruence. Qed.

Lemma root_methods_nonempty : methods root_rule ≠ ∅.
Proof. intros H. assert ("GET" ∈ methods root_rule) as Hin by (vm_compute; reflexivity).
  rewrite H in Hin. set_solver. Qed.

(** Routing of path [/]: the static rule does not fit, the root rule
    does, and the method decides. *)
Lemma match_root (m : string) :
  match_ (url_map built_app) "/" m ∅ =
  if bool_decide (m ∈ methods root_rule) then inr (root_rule, [])
  else inl (MethodNotAllowed (elements (methods root_rule))).
Proof.
  unfold built_app. cbn [url_map match_].
  change (match_rule static_rule "/") with (@None (list (string * string))).
  change (match_rule root_rule "/") with (Some (@nil (string * string))).
  cbv beta iota. case_bool_decide as Hm; [reflexivity|].
  rewrite (left_id_L ∅ (∪)).
  rewrite bool_decide_eq_false_2 by apply root_methods_nonempty.
  reflexivity.
Qed.

Lemma lookup_hello : view_functions built_app !! "hello" = Some hello.
Proof. unfold built_app. cbn [view_functions]. apply lookup_insert_eq. Qed.

Lemma view_functions_built (e : string) (f : ViewFunc) :
  view_functions built_app !! e = Some f → f = hello ∨ f = send_static_file.
Proof.
  unfold built_app. cbn [view_functions].
  rewrite !lookup_insert. repeat case_decide; rewrite ?lookup_empty; naive_solver.
Qed.

(** Neither view of the application writes to the store. *)
Lemma call_store (f : ViewFunc) (ctx : RequestContext) (st : Store) :
  f = hello ∨ f = send_static_file → fst (call f ctx st) = st.
Proof.
  intros [-> | ->]; unfold call; cbn [fn_params hello send_static_file fn_body].
  - case_bool_decide; reflexivity.
  - reflexivity.
Qed.

Lemma wsgi_app_store (req : Request) (st : Store) :
  fst (wsgi_app built_app req st) = st.
Proof.
  unfold wsgi_app, full_dispatch_request, dispatch_request.
  destruct (match_ _ _ _ _) as [e | [r args]]; [reflexivity|].
  destruct (provide_automatic_options r && _); [reflexivity|].
  destruct (view_functions built_app !! endpoint r) as [f|] eqn:Hf; [|reflexivity].
  pose proof (call_store f {| request := req; view_args := args |} st
                (view_functions_built _ _ Hf)) as Hst.
  destruct (call f _ st) as [st' c]. cbn [fst] in Hst. subst st'.
  destruct c as [rv | [e | t]]; reflexivity.
Qed.

(** A GET on [/] runs [hello] and answers with the greeting. *)
Lemma wsgi_app_get_root (req : Request) (st : Store) :
  method req = "GET" → path req = "/" →
  wsgi_app built_app req st =
  (st, {| entered := ["hello"]; failure := None; response := greeting |}).
Proof.
  intros Hm Hp.
  unfold wsgi_app, full_dispatch_request, dispatch_request.
  rewrite Hm, Hp, match_root.
  rewrite bool_decide_eq_true_2 by (vm_compute; reflexivity).
  cbn [provide_automatic_options root_rule endpoint andb String.eqb Ascii.eqb Bool.eqb].
  rewrite lookup_hello.
  reflexivity.
Qed.


Lemma serve_replicate_get (req : Request) (st : Store) (n : nat) :
  method req = "GET" → path req = "/" →
  serve built_app (replicate n req) st =
  (st, replicate n {| entered := ["hello"]; failure := None; response := greeting |}).
Proof.
  intros Hm Hp. induction n as [|n IH]; [reflexivity|].
  cbn [replicate serve]. rewrite wsgi_app_get_root by assumption.
  rewrite IH. reflexivity.
Qed.





(** [tests/test_app.py], [test_hello_route]. *)
Lemma test_hello_route :
  ∀ app, create_app tt = Ok app →
  let response := response (snd (client_open app "GET" "/" ∅)) in
  status_code response = 200 ∧
  (get_json response ≫= λ v, match v with
                              | JObj d => dict_get "message" d
                              | _ => None
                              end) = Some (JStr "Welcome to Awesome API!").
Proof.
  intros app Happ. rewrite (create_app_inv _ Happ).
  unfold client_open. cbn [split_query Ascii.eqb Bool.eqb].
  rewrite wsgi_app_get_root by reflexivity. split; vm_compute; reflexivity.
Qed.

(** The query string of the URL plays no part: [GET /?foo=bar] is served
    as [GET /] is. *)
Lemma query_string_ignored (st : Store) :
  ∀ app, create_app tt = Ok app →
  response (snd (client_open app "GET" "/?foo=bar" st)) =
  response (snd (client_open app "GET" "/" st)).
Proof.
  intros app Happ. rewrite (create_app_inv _ Happ).
  unfold client_open. cbn [split_query Ascii.eqb Bool.eqb].
  rewrite !wsgi_app_get_root by reflexivity. reflexivity.
Qed.

(** * The claims *)







(** C4, as amended.  [create_app], called with no argument, returns an
    application (it does not raise) whose URL map holds exactly two rules:
    the rule for static files that the framework's constructor registers,
    and the one rule [create_app] itself adds, [/], bound to [hello] and
    answering GET, HEAD and OPTIONS. *)
Theorem create_app_routes :
  ∃ app base,
    create_app tt = Ok app ∧ Flask "awesome_api" = Ok base ∧
    url_map base = [static_rule] ∧
    url_map app = (url_map base ++ [root_rule])%list ∧
    rule root_rule = "/" ∧
    methods root_rule = {["GET"; "HEAD"; "OPTIONS"]} ∧
    view_functions app !! endpoint root_rule = Some hello.
Proof.
  exists built_app.
  eexists. split; [apply create_app_built|].
  split; [vm_compute; reflexivity|].
  split; [reflexivity|]. split; [reflexivity|]. split; [reflexivity|].
  split; [reflexivity|]. apply lookup_hello.
Qed.

(** C4, as first stated, fails: the returned application has two rules,
    not one, and each of them lists HEAD and OPTIONS besides GET. *)
Lemma create_app_single_get_route_counterexample :
  ∃ app,
    create_app tt = Ok app ∧
    length (url_map app) = 2 ∧
    (∀ r, r ∈ url_map app → "HEAD" ∈ methods r ∧ "OPTIONS" ∈ methods r) ∧
    ¬ (∃ r, url_map app = [r] ∧ rule r = "/" ∧ methods r = {["GET"]}).
Proof.
  exists built_app. split; [vm_compute; reflexivity|]. split; [reflexivity|].
  split.
  - intros r Hr. unfold built_app in Hr. cbn [url_map] in Hr.
    apply elem_of_cons in Hr as [-> | Hr];
      [|apply elem_of_cons in Hr as [-> | Hr]; [|by apply elem_of_nil in Hr]];
      split; vm_compute; reflexivity.
  - intros (r & Hr & _). discriminate Hr.
Qed.

(** C5. The same GET request to [/], issued [n] times in a row, is
    answered [n] times, and any two of the answers are the same response:
    same status, same headers, same body. *)
Theorem repeated_get_root_identical
    (app : App) (req : Request) (st : Store) (n : nat) :
  create_app tt = Ok app → method req = "GET" → path req = "/" →
  let outs := snd (serve app (replicate n req) st) in
  length outs = n ∧
  ∀ o1 o2, o1 ∈ outs → o2 ∈ outs → response o1 = response o2.
Proof.
  intros Happ Hm Hp.
  rewrite (create_app_inv _ Happ), serve_replicate_get by assumption.
  cbn [snd]. split; [apply length_replicate|].
  intros o1 o2 H1 H2.
  apply elem_of_replicate in H1 as [-> _].
  apply elem_of_replicate in H2 as [-> _]. reflexivity.
Qed.

Lemma repeated_get_root_identical_witness :
  create_app tt = Ok built_app ∧ method busy_get = "GET" ∧ path busy_get = "/" ∧
  let outs := snd (serve built_app (replicate 4 busy_get) some_store) in
  length outs = 4 ∧
  ∀ o1 o2, o1 ∈ outs → o2 ∈ outs → response o1 = response o2.
Proof.
  assert (create_app tt = Ok built_app) as H by (vm_compute; reflexivity).
  split; [exact H|]. split; [reflexivity|]. split; [reflexivity|].
  exact (repeated_get_root_identical built_app busy_get some_store 4
           H eq_refl eq_refl).
Defined.





(** C8. The root handler is total and cannot fail: under every request
    context and store its body returns a value and never raises; and a
    GET on [/] reaches it with arguments it accepts, so that the request
    is served with [hello] entered, no exception, and status 200. *)
Theorem hello_cannot_fail (app : App) (req : Request) (st : Store) :
  create_app tt = Ok app → method req = "GET" → path req = "/" →
  (∀ ctx st', ∃ rv, fn_body hello ctx st' = (st', Return rv)) ∧
  (∀ ctx st' e, snd (fn_body hello ctx st') ≠ Raise e) ∧
  (∃ rv, call hello {| request := req; view_args := [] |} st = (st, Return rv)) ∧
  let out := snd (wsgi_app app req st) in
  entered out = ["hello"] ∧ failure out = None ∧
  status_code (response out) = 200.
Proof.
  intros Happ Hm Hp. split; [|split; [|split]].
  - intros ctx st'. eexists. reflexivity.
  - intros ctx st' e. cbn [hello fn_body snd]. discriminate.
  - eexists. unfold call. cbn [fn_params hello view_args fmap list_fmap].
    rewrite bool_decide_eq_true_2 by reflexivity. reflexivity.
  - rewrite (create_app_inv _ Happ), wsgi_app_get_root by assumption.
    repeat split.
Qed.

Lemma hello_cannot_fail_witness :
  create_app tt = Ok built_app ∧ method busy_get = "GET" ∧ path busy_get = "/" ∧
  (∀ ctx st', ∃ rv, fn_body hello ctx st' = (st', Return rv)) ∧
  (∀ ctx st' e, snd (fn_body hello ctx st') ≠ Raise e) ∧
  (∃ rv, call hello {| request := busy_get; view_args := [] |} some_store
         = (some_store, Return rv)) ∧
  let out := snd (wsgi_app built_app busy_get some_store) in
  entered out = ["hello"] ∧ failure out = None ∧
  status_code (response out) = 200.
Proof.
  assert (create_app tt = Ok built_app) as H by (vm_compute; reflexivity).
  split; [exact H|]. split; [reflexivity|]. split; [reflexivity|].
  exact (hello_cannot_fail built_app busy_get some_store H eq_refl eq_refl).
Defined.





(** * Further properties of the application and of its test *)

(** ** The matcher *)








Lemma get_wsgi_response_headers (m : string) (r : Response) :
  headers (get_wsgi_response m r) = headers r.
Proof. unfold get_wsgi_response. destruct (_ || _); reflexivity. Qed.

(** ** The outcome of any request *)


(** Neither view of the application reads the store. *)
Lemma call_any_store (f : ViewFunc) (ctx : RequestContext) (st st' : Store) :
  f = hello ∨ f = send_static_file →
  snd (call f ctx st) = snd (call f ctx st').
Proof.
  intros [-> | ->]; unfold call; cbn [fn_params hello send_static_file fn_body].
  - case_bool_decide; reflexivity.
  - reflexivity.
Qed.

Lemma wsgi_app_any_store (req : Request) (st st' : Store) :
  snd (wsgi_app built_app req st) = snd (wsgi_app built_app req st').
Proof.
  unfold wsgi_app, full_dispatch_request, dispatch_request.
  destruct (match_ _ _ _ _) as [e | [r args]]; [reflexivity|].
  destruct (provide_automatic_options r && _); [reflexivity|].
  destruct (view_functions built_app !! endpoint r) as [f|] eqn:Hf; [|reflexivity].
  pose proof (call_any_store f {| request := req; view_args := args |} st st'
                (view_functions_built _ _ Hf)) as Hc.
  destruct (call f _ st) as [st1 c1], (call f _ st') as [st2 c2].
  cbn [snd] in Hc. subst c2.
  destruct c1 as [rv | [e | t]]; reflexivity.
Qed.



(** * Properties beyond the claims *)









(** X5. Requests are served independently of one another: serving a
    sequence gives, request by request, what each request would get if it
    were served alone from any store. *)
Theorem serve_each_alone
    (app : App) (reqs : list Request) (st st' : Store) :
  create_app tt = Ok app →
  snd (serve app reqs st) = (λ req, snd (wsgi_app app req st')) <$> reqs.
Proof.
  intros Happ. rewrite (create_app_inv _ Happ).
  revert st. induction reqs as [|req reqs IH]; intros st; [reflexivity|].
  cbn [serve fmap list_fmap].
  pose proof (wsgi_app_store req st) as Hst.
  pose proof (wsgi_app_any_store req st st') as Hout.
  destruct (wsgi_app built_app req st) as [st1 out].
  cbn [fst snd] in Hst, Hout. subst st1.
  specialize (IH st).
  destruct (serve built_app reqs st) as [st2 outs]. cbn [snd] in IH |- *.
  rewrite Hout. f_equal. exact IH.
Qed.

Lemma serve_each_alone_witness :
  create_app tt = Ok built_app ∧
  snd (serve built_app [plain_post; busy_get; with_method "HEAD" plain_get] some_store) =
  (λ req, snd (wsgi_app built_app req ∅))
    <$> [plain_post; busy_get; with_method "HEAD" plain_get].
Proof.
  assert (create_app tt = Ok built_app) as H by (vm_compute; reflexivity).
  split; [exact H|].
  exact (serve_each_alone built_app
           [plain_post; busy_get; with_method "HEAD" plain_get] some_store ∅ H).
Defined.



(** X7. The test of the package passes: with its fixtures resolved,
    [test_hello_route] runs through both assertions without raising, from
    any store, and leaves the store as it found it. *)
Theorem test_hello_route_passes (st : Store) :
  test_app.run st = (st, Ok tt).
Proof.
  unfold test_app.run, test_app.app. rewrite create_app_built.
  unfold test_app.test_hello_route, test_app.get, test_app.client, client_open.
  cbn [test_app.application split_query Ascii.eqb Bool.eqb].
  rewrite wsgi_app_get_root by reflexivity.
  cbn [response]. vm_compute. reflexivity.
Qed.

